(** * Copy-on-write simulation metadata of c10: generation counters,
      the shadow-storage mixin, the Storage facade and the c10d shuffle
      operators.

    Shallow embedding of
      - c10/core/impl/cow/shadow_storage.cpp
      - c10/core/Storage.cpp
      - torch/csrc/distributed/c10d/shuffle.cpp

    Conventions.
      - [std::uint64_t] is a [Z] in the range [0 .. 2^64-1]; arithmetic on
        it is written with its wrap-around ([wrap64]).
      - A member function that mutates [*this] is a computation
        [M S A = S -> outcome A * S] over the state [S] of the object (or of
        the world it lives in).
      - Pointers are optional addresses, [nullptr] being [None].  Reference
        counts of [intrusive_ptr] targets are not part of the model: an
        [intrusive_ptr] is the address it holds. *)

From Stdlib Require Import Ascii String.
From stdpp Require Import base numbers option list gmap strings.

Local Open Scope Z_scope.

(** ** Abnormal completion *)

(** The errors raised by the three files. *)
Inductive Error : Type :=
| InternalAssertFailed (cond : string)
| NotImplementedError (msg : string).

(** How a call completes.  [Throws] is an exception raised with
    [C10_THROW_ERROR]; [Fatal] is a failed internal assertion; [Undefined]
    is a call through a pointer that denotes no object, to which C++ gives
    no behaviour. *)
Inductive outcome (A : Type) : Type :=
| Returns (a : A)
| Throws (e : Error)
| Fatal (e : Error)
| Undefined.
Arguments Returns {A} a.
Arguments Throws {A} e.
Arguments Fatal {A} e.
Arguments Undefined {A}.

Definition is_fatal {A} (r : outcome A) : bool :=
  match r with Fatal _ => true | _ => false end.

Definition is_internal_assert {A} (r : outcome A) : bool :=
  match r with Fatal (InternalAssertFailed _) => true | _ => false end.

(** ** Computations over a state *)

Definition M (S A : Type) : Type := S -> outcome A * S.

Definition ret {S A} (a : A) : M S A := fun s => (Returns a, s).

Definition bind {S A B} (c : M S A) (k : A -> M S B) : M S B :=
  fun s =>
    match c s with
    | (Returns a, s') => k a s'
    | (Throws e, s') => (Throws e, s')
    | (Fatal e, s') => (Fatal e, s')
    | (Undefined, s') => (Undefined, s')
    end.

Definition gets {S A} (f : S -> A) : M S A := fun s => (Returns (f s), s).

Notation "x <- c ;; k" := (bind c (fun x => k))
  (at level 100, c at next level, right associativity).
Notation "c ;;; k" := (bind c (fun _ => k))
  (at level 100, right associativity).

(** Modelled from the spec: [TORCH_INTERNAL_ASSERT], a macro of
    c10/util/Exception.h, which is not among the sources.  The spec makes a
    failed internal assertion a fatal internal-consistency violation; a
    passed one has no effect.  [cond] is the text of the asserted
    condition. *)
Definition TORCH_INTERNAL_ASSERT {S} (b : bool) (cond : string) : M S unit :=
  fun s => if b then (Returns tt, s) else (Fatal (InternalAssertFailed cond), s).

(** Modelled from the spec: [C10_THROW_ERROR], a macro of
    c10/util/Exception.h, which is not among the sources: it raises the
    named error with the given message. *)
Definition C10_THROW_ERROR {S A} (e : string -> Error) (msg : string) : M S A :=
  fun s => (Throws (e msg), s).

(** ** Pointers *)

Definition addr : Type := nat.

(** A raw pointer [T*]. *)
Definition ptr : Type := option addr.

Definition nullptr : ptr := None.

(** [c10::intrusive_ptr<T>], with its [get()]. *)
Record intrusive_ptr : Type := MkIntrusivePtr { get : ptr }.

(** The empty [intrusive_ptr], what [nullptr] converts to. *)
Definition null_intrusive_ptr : intrusive_ptr := {| get := nullptr |}.

(** [p != nullptr] *)
Definition not_null (p : intrusive_ptr) : bool :=
  match get p with Some _ => true | None => false end.

(** [p->m(...)]: the call [m] on the object [p] points to. *)
Definition arrow {S A} (p : ptr) (m : addr -> M S A) : M S A :=
  match p with
  | Some a => m a
  | None => fun s => (Undefined, s)
  end.

(** ** std::uint64_t *)

Definition uint64_max : Z := 2 ^ 64 - 1.

Definition wrap64 (x : Z) : Z := x mod 2 ^ 64.

Definition is_uint64 (x : Z) : Prop := 0 <= x <= uint64_max.

(** ** c10::impl::cow::detail::ShadowStorageImpl<intrusive> *)

Module cow.

(** The generation counter.  [intrusive] is the template parameter: [true]
    for the reference-counted (shared) variant, [false] for the exclusively
    owned one. *)
Record ShadowStorageImpl (intrusive : bool) : Type :=
  MkShadowStorageImpl { generation_ : Z }.
Arguments MkShadowStorageImpl {intrusive} generation_.
Arguments generation_ {intrusive} _.

(** [ShadowStorageImpl(std::uint64_t generation)] *)
Definition new (intrusive : bool) (generation : Z) : ShadowStorageImpl intrusive :=
  {| generation_ := generation |}.

(** [generation() const noexcept] *)
Definition generation {intrusive} : M (ShadowStorageImpl intrusive) Z :=
  gets generation_.

(** [++generation_]: stores the incremented value and yields it. *)
Definition pre_increment_generation_ {intrusive}
  : M (ShadowStorageImpl intrusive) Z :=
  fun this =>
    let g := wrap64 (generation_ this + 1) in
    (Returns g, {| generation_ := g |}).

(** [bump_generation() noexcept] *)
Definition bump_generation {intrusive} : M (ShadowStorageImpl intrusive) Z :=
  g <- gets generation_ ;;
  TORCH_INTERNAL_ASSERT (negb (g =? uint64_max))
    "generation_ != std::numeric_limits<std::uint64_t>::max()" ;;;
  pre_increment_generation_.

(** A counter holds a value of its field's type. *)
Definition wf {intrusive} (this : ShadowStorageImpl intrusive) : Prop :=
  is_uint64 (generation_ this).

(** [n] calls of [bump_generation] in sequence, with the values they
    return, in call order. *)
Fixpoint bump_n {intrusive} (n : nat) : M (ShadowStorageImpl intrusive) (list Z) :=
  match n with
  | O => ret []
  | S n' =>
      r <- bump_generation ;;
      rs <- bump_n n' ;;
      ret (r :: rs)
  end.

(** The calls a client can make on a counter. *)
Inductive call : Type := CallGeneration | CallBumpGeneration.

Definition do_call {intrusive} (c : call) : M (ShadowStorageImpl intrusive) Z :=
  match c with
  | CallGeneration => generation
  | CallBumpGeneration => bump_generation
  end.

(** A client making the calls [cs] in order: the outcome of every call made,
    and the counter at the end.  Nothing runs after a call that did not
    return. *)
Fixpoint run_calls {intrusive} (cs : list call) (this : ShadowStorageImpl intrusive)
  : list (outcome Z) * ShadowStorageImpl intrusive :=
  match cs with
  | [] => ([], this)
  | c :: cs' =>
      match do_call c this with
      | (Returns v, this') =>
          let '(rs, final) := run_calls cs' this' in (Returns v :: rs, final)
      | (r, this') => ([r], this')
      end
  end.

(** Whether a call is a [bump_generation]. *)
Definition is_bump (c : call) : bool :=
  match c with
  | CallBumpGeneration => true
  | CallGeneration => false
  end.

(** The number of [bump_generation] calls among [cs]. *)
Definition count_bumps (cs : list call) : nat :=
  length (List.filter is_bump cs).

(** Whether a call returned. *)
Definition returned {A} (r : outcome A) : bool :=
  match r with Returns _ => true | _ => false end.

(** *** Counters as objects

    Counters live at addresses of a store; a member function called through
    an address updates the object found there and nothing else. *)

Inductive object : Type :=
| Obj (intrusive : bool) (o : ShadowStorageImpl intrusive).

Abbreviation store := (gmap addr object).

(** [new ShadowStorageImpl<intrusive>(generation)]: a new object, at an
    address not in use. *)
Definition allocate (intrusive : bool) (generation : Z) : M store addr :=
  fun h =>
    let a := fresh (dom h) in
    (Returns a, <[a := Obj intrusive (new intrusive generation)]> h).

(** [a->m()] *)
Definition invoke {A} (a : addr)
    (m : forall intrusive, M (ShadowStorageImpl intrusive) A) : M store A :=
  fun h =>
    match h !! a with
    | Some (Obj intrusive o) =>
        let '(r, o') := m intrusive o in
        (r, <[a := Obj intrusive o']> h)
    | None => (Undefined, h)
    end.

(** The generation held at an address. *)
Definition generation_at (a : addr) (h : store) : option Z :=
  match h !! a with
  | Some (Obj _ o) => Some (generation_ o)
  | None => None
  end.

(** The scenario of a storage and a shadow taken of it: the storage's live
    counter starts at 0, a shadow captures the generation read from it, the
    live counter is bumped three times, and both are read.  The result is
    (shadow's generation, storage's generation). *)
Definition shadow_scenario (i j : bool) : M store (Z * Z) :=
  storage <- allocate i 0 ;;
  g <- invoke storage (@generation) ;;
  shadow <- allocate j g ;;
  invoke storage (@bump_generation) ;;;
  invoke storage (@bump_generation) ;;;
  invoke storage (@bump_generation) ;;;
  gs <- invoke shadow (@generation) ;;
  gl <- invoke storage (@generation) ;;
  ret (gs, gl).

(** *** ShadowStorageMixin *)

(** The data members of the mixin: [shadow_storage_] exists only where
    [PYTORCH_INSTRUMENT_COW_TENSOR] is defined. *)
Definition members (PYTORCH_INSTRUMENT_COW_TENSOR : bool) : Type :=
  if PYTORCH_INSTRUMENT_COW_TENSOR then intrusive_ptr else unit.

Record ShadowStorageMixin (PYTORCH_INSTRUMENT_COW_TENSOR : bool) : Type :=
  MkShadowStorageMixin { shadow_storage_ : members PYTORCH_INSTRUMENT_COW_TENSOR }.
Arguments MkShadowStorageMixin {_} shadow_storage_.
Arguments shadow_storage_ {_} _.

(** [ShadowStorageMixin(intrusive_ptr<ShadowStorage> shadow_storage)] *)
Definition new_mixin (PYTORCH_INSTRUMENT_COW_TENSOR : bool)
    (shadow_storage : intrusive_ptr)
  : ShadowStorageMixin PYTORCH_INSTRUMENT_COW_TENSOR :=
  match PYTORCH_INSTRUMENT_COW_TENSOR
        return ShadowStorageMixin PYTORCH_INSTRUMENT_COW_TENSOR with
  | true => {| shadow_storage_ := shadow_storage : members true |}
  | false => {| shadow_storage_ := tt : members false |}
  end.

(** [shadow_storage() const -> ShadowStorage*] *)
Definition shadow_storage {PYTORCH_INSTRUMENT_COW_TENSOR : bool}
  : ShadowStorageMixin PYTORCH_INSTRUMENT_COW_TENSOR -> ptr :=
  match PYTORCH_INSTRUMENT_COW_TENSOR
        return ShadowStorageMixin PYTORCH_INSTRUMENT_COW_TENSOR -> ptr with
  | true => fun this => get (shadow_storage_ this : intrusive_ptr)
  | false => fun _ => nullptr
  end.

(** [shadow_storage_ref() const -> intrusive_ptr<ShadowStorage>] *)
Definition shadow_storage_ref {PYTORCH_INSTRUMENT_COW_TENSOR : bool}
  : ShadowStorageMixin PYTORCH_INSTRUMENT_COW_TENSOR -> intrusive_ptr :=
  match PYTORCH_INSTRUMENT_COW_TENSOR
        return ShadowStorageMixin PYTORCH_INSTRUMENT_COW_TENSOR -> intrusive_ptr with
  | true => fun this => (shadow_storage_ this : intrusive_ptr)
  | false => fun _ => null_intrusive_ptr
  end.

(** [this->shadow_storage()->m()]: a member function of the counter called
    through the pointer the mixin hands out. *)
Definition through_shadow_storage {PYTORCH_INSTRUMENT_COW_TENSOR : bool} {A}
    (this : ShadowStorageMixin PYTORCH_INSTRUMENT_COW_TENSOR)
    (m : forall intrusive, M (ShadowStorageImpl intrusive) A) : M store A :=
  arrow (shadow_storage this) (fun a => invoke a m).

End cow.

(** ** c10::Storage *)

(** The two entry points of the backing implementation that [Storage]
    forwards to.  [StorageImpl] is not among the sources, so they are taken
    as given, over a state [World] of their own; [impl] is the address of
    the implementation object and [simulator] the argument passed on. *)
Class StorageImpl (World : Type) : Type := {
  StorageImpl_simulate_copy_on_write
    (impl : addr) (simulator : ptr) : M World intrusive_ptr;
  StorageImpl_maybe_bump_copy_on_write_generation
    (impl : addr) (simulator : ptr) : M World unit
}.

Module Storage.

Record Storage : Type := MkStorage { storage_impl_ : intrusive_ptr }.

Section Facade.
Context {World : Type} `{!StorageImpl World}.

(** [Storage::simulate_copy_on_write(simulator) const] *)
Definition simulate_copy_on_write (this : Storage) (simulator : ptr)
  : M World intrusive_ptr :=
  TORCH_INTERNAL_ASSERT (not_null (storage_impl_ this))
    "storage_impl_ != nullptr" ;;;
  arrow (get (storage_impl_ this))
    (fun impl => StorageImpl_simulate_copy_on_write impl simulator).

(** [Storage::maybe_bump_copy_on_write_generation(simulator)] *)
Definition maybe_bump_copy_on_write_generation (this : Storage)
    (simulator : ptr) : M World unit :=
  TORCH_INTERNAL_ASSERT (not_null (storage_impl_ this))
    "storage_impl_ != nullptr" ;;;
  arrow (get (storage_impl_ this))
    (fun impl => StorageImpl_maybe_bump_copy_on_write_generation impl simulator).
End Facade.

End Storage.

(** A backing implementation to run the facade on concrete inputs.  Its
    world counts the calls made to each of the two entry points;
    [simulate_copy_on_write] hands back the simulator it was given. *)
Definition counting_StorageImpl : StorageImpl (nat * nat) := {|
  StorageImpl_simulate_copy_on_write _ simulator :=
    fun w => (Returns {| get := simulator |}, (S w.1, w.2));
  StorageImpl_maybe_bump_copy_on_write_generation _ _ :=
    fun w => (Returns tt, (w.1, S w.2))
|}.

(** ** c10d shuffle operators *)

(** The CUDA implementations declared under [USE_CUDA]; their definitions
    are not among the sources, so they are taken as given, over tensor
    handles [Tensor] and a state [World] holding what the handles refer
    to. *)
Class CudaKernels (Tensor World : Type) : Type := {
  fsdpAllGatherCopyOut
    (params : list Tensor) (allGatherRes : Tensor) (worldSize : Z) : M World unit;
  unflatten_cat_with_pad_cuda
    (tensors : list Tensor) (dim factor : Z) (out : Tensor) : M World unit
}.

Module shuffle.

Inductive DispatchKey : Type := CompositeExplicitAutograd.

Inductive Tag : Type := pt2_compliant_tag.

Section Ops.
Context {Tensor World : Type} `{!CudaKernels Tensor World}.
Variable USE_CUDA : bool.

Definition fsdp_all_gather_copy_out
    (params : list Tensor) (all_gather_res : Tensor) (world_size : Z)
  : M World unit :=
  if USE_CUDA
  then fsdpAllGatherCopyOut params all_gather_res world_size
  else C10_THROW_ERROR NotImplementedError "Not implemented for CPU".

Definition unflatten_cat_with_pad
    (tensors : list Tensor) (dim factor : Z) (out : Tensor)
  : M World unit :=
  if USE_CUDA
  then unflatten_cat_with_pad_cuda tensors dim factor out
  else C10_THROW_ERROR NotImplementedError "Not implemented for CPU".

(** A function registered as the kernel of an operator, by signature. *)
Inductive Kernel : Type :=
| Kernel_TensorList_Tensor_int
    (f : list Tensor -> Tensor -> Z -> M World unit)
| Kernel_TensorList_int_int_Tensor
    (f : list Tensor -> Z -> Z -> Tensor -> M World unit).

(** One [m.def(schema, torch::dispatch(key, fn), {tags})]. *)
Record OperatorDef : Type := MkOperatorDef {
  schema : string;
  dispatch_key : DispatchKey;
  kernel : Kernel;
  tags : list Tag
}.

(** [TORCH_LIBRARY_FRAGMENT(c10d, m)] *)
Definition c10d_fragment : list OperatorDef :=
  [ {| schema := "fsdp_all_gather_copy_out(" +:+
                 "Tensor[] params, Tensor all_gather_res, int world_size) -> ()";
       dispatch_key := CompositeExplicitAutograd;
       kernel := Kernel_TensorList_Tensor_int fsdp_all_gather_copy_out;
       tags := [pt2_compliant_tag] |};
    {| schema := "unflatten_cat_with_pad(" +:+
                 "Tensor[] tensors, int dim, int factor, Tensor out) -> ()";
       dispatch_key := CompositeExplicitAutograd;
       kernel := Kernel_TensorList_int_int_Tensor unflatten_cat_with_pad;
       tags := [pt2_compliant_tag] |} ].
End Ops.

(** The name an operator is registered under: its schema up to the
    parenthesis that opens the argument list. *)
Fixpoint schema_name (s : string) : string :=
  match s with
  | EmptyString => EmptyString
  | String c s' =>
      if Ascii.eqb c "("%char then EmptyString else String c (schema_name s')
  end.

End shuffle.

(** * Properties *)

(** ** The generation counter *)

Section Counter.
Context {intrusive : bool}.
Implicit Types this : cow.ShadowStorageImpl intrusive.

Lemma generation_eq this :
  cow.generation this = (Returns (cow.generation_ this), this).
Proof. reflexivity. Qed.

(** [bump_generation] by cases on the guard. *)
Lemma bump_generation_eq this :
  cow.bump_generation this =
    if cow.generation_ this =? uint64_max
    then (Fatal (InternalAssertFailed
              "generation_ != std::numeric_limits<std::uint64_t>::max()"), this)
    else (Returns (wrap64 (cow.generation_ this + 1)),
          cow.new intrusive (wrap64 (cow.generation_ this + 1))).
Proof.
  unfold cow.bump_generation, bind, gets, TORCH_INTERNAL_ASSERT. simpl.
  destruct (cow.generation_ this =? uint64_max); reflexivity.
Qed.

Lemma wrap64_succ g : is_uint64 g -> g <> uint64_max -> wrap64 (g + 1) = g + 1.
Proof.
  unfold is_uint64, uint64_max, wrap64. intros Hg Hne.
  apply Z.mod_small. lia.
Qed.

Lemma bump_generation_below this :
  cow.wf this -> cow.generation_ this <> uint64_max ->
  cow.bump_generation this =
    (Returns (cow.generation_ this + 1),
     cow.new intrusive (cow.generation_ this + 1)).
Proof.
  intros Hwf Hne. rewrite bump_generation_eq.
  destruct (Z.eqb_spec (cow.generation_ this) uint64_max) as [E|_]; [done|].
  by rewrite wrap64_succ.
Qed.

Lemma bump_generation_at_max this :
  cow.generation_ this = uint64_max ->
  cow.bump_generation this = (Fatal (InternalAssertFailed
              "generation_ != std::numeric_limits<std::uint64_t>::max()"), this).
Proof.
  intros E. rewrite bump_generation_eq.
  by destruct (Z.eqb_spec (cow.generation_ this) uint64_max).
Qed.

(** A call either fails leaving the counter as it was, or returns. In both
    cases a well-formed counter stays well-formed and does not go down. *)
Lemma do_call_step c this :
  cow.wf this ->
  cow.wf (cow.do_call c this).2 /\
  cow.generation_ this <= cow.generation_ (cow.do_call c this).2.
Proof.
  intros Hwf. destruct c; simpl.
  - split; [done | lia].
  - rewrite bump_generation_eq.
    destruct (Z.eqb_spec (cow.generation_ this) uint64_max) as [E|Hne]; simpl.
    + split; [done | lia].
    + rewrite wrap64_succ by done. unfold cow.wf, is_uint64 in *. simpl. lia.
Qed.

Lemma run_calls_cons c cs this :
  cow.run_calls (c :: cs) this =
    match cow.do_call c this with
    | (Returns v, this') =>
        (Returns v :: (cow.run_calls cs this').1, (cow.run_calls cs this').2)
    | (r, this') => ([r], this')
    end.
Proof.
  simpl. destruct (cow.do_call c this) as [[v|e|e|] this']; try reflexivity.
  by destruct (cow.run_calls cs this').
Qed.

Lemma run_calls_invariant cs : forall this,
  cow.wf this ->
  cow.wf (cow.run_calls cs this).2 /\
  cow.generation_ this <= cow.generation_ (cow.run_calls cs this).2.
Proof.
  induction cs as [|c cs IH]; intros this Hwf.
  - simpl. split; [done | lia].
  - rewrite run_calls_cons.
    destruct (do_call_step c this Hwf) as [Hwf' Hle].
    destruct (cow.do_call c this) as [[v|e|e|] this']; simpl in *;
      try (split; [done | lia]).
    destruct (IH this' Hwf') as [Hwf'' Hle']. split; [done | lia].
Qed.

(** Running [cs ++ cs'] ends where [cs] ends, or goes on from there
    with [cs']. *)
Lemma run_calls_app cs cs' : forall this,
  (cow.run_calls (cs ++ cs') this).2 = (cow.run_calls cs this).2 \/
  (cow.run_calls (cs ++ cs') this).2 =
    (cow.run_calls cs' (cow.run_calls cs this).2).2.
Proof.
  induction cs as [|c cs IH]; intros this.
  - right. reflexivity.
  - rewrite <- app_comm_cons, !run_calls_cons.
    destruct (cow.do_call c this) as [[v|e|e|] this']; simpl; auto.
Qed.

Lemma bump_n_succ n this :
  cow.bump_n (S n) this =
    match cow.bump_generation this with
    | (Returns r, this') =>
        match cow.bump_n n this' with
        | (Returns rs, this'') => (Returns (r :: rs), this'')
        | (Throws e, this'') => (Throws e, this'')
        | (Fatal e, this'') => (Fatal e, this'')
        | (Undefined, this'') => (Undefined, this'')
        end
    | (Throws e, this') => (Throws e, this')
    | (Fatal e, this') => (Fatal e, this')
    | (Undefined, this') => (Undefined, this')
    end.
Proof.
  simpl. unfold bind, ret.
  destruct (cow.bump_generation this) as [[r|e|e|] this']; reflexivity.
Qed.

(** The values returned by [N] bumps from [G]: [G+1, ..., G+N]. *)
Lemma bump_n_returns N : forall G,
  is_uint64 G -> G + Z.of_nat N <= uint64_max ->
  cow.bump_n N (cow.new intrusive G) =
    (Returns (map (fun k => G + Z.of_nat k) (seq 1 N)),
     cow.new intrusive (G + Z.of_nat N)).
Proof.
  induction N as [|N IH]; intros G HG Hle.
  - simpl. unfold ret, cow.new. do 3 f_equal. lia.
  - assert (Hne : G <> uint64_max) by lia.
    assert (HG' : is_uint64 (G + 1)) by (unfold is_uint64 in *; lia).
    rewrite bump_n_succ, bump_generation_below by done. simpl.
    rewrite IH by (done || lia).
    f_equal.
    + do 2 f_equal. rewrite <- (seq_shift N 1), map_map.
      apply map_ext. intros k. lia.
    + unfold cow.new. f_equal. lia.
Qed.
End Counter.

(** C1. For either ownership policy, an initial generation [G] and a number
    [N] of calls with [G + N] at most the largest [uint64_t] value: [N]
    calls of [bump_generation] in sequence on a counter constructed with [G]
    all return, the counter then holds (and [generation()] returns) [G + N],
    and the [k]-th call, counting from 1, returned [G + k]. *)
Theorem bump_generation_n_times (intrusive : bool) (G : Z) (N : nat) :
  is_uint64 G ->
  G + Z.of_nat N <= uint64_max ->
  exists rets : list Z,
    cow.bump_n N (cow.new intrusive G)
      = (Returns rets, cow.new intrusive (G + Z.of_nat N))
    /\ (cow.generation (cow.bump_n N (cow.new intrusive G)).2).1
      = Returns (G + Z.of_nat N)
    /\ length rets = N
    /\ forall k : nat, (1 <= k <= N)%nat ->
         rets !! (k - 1)%nat = Some (G + Z.of_nat k).
Proof.
  intros HG Hle.
  exists (map (fun k => G + Z.of_nat k) (seq 1 N)).
  rewrite bump_n_returns by done.
  split; [reflexivity|]. split; [reflexivity|].
  split; [by rewrite length_map, length_seq|].
  intros k Hk.
  rewrite list_lookup_fmap, lookup_seq_lt by lia. simpl.
  do 2 f_equal. lia.
Qed.

Lemma bump_generation_n_times_witness :
  exists rets : list Z,
    cow.bump_n 3 (cow.new true 5) = (Returns rets, cow.new true (5 + Z.of_nat 3))
    /\ (cow.generation (cow.bump_n 3 (cow.new true 5)).2).1
      = Returns (5 + Z.of_nat 3)
    /\ length rets = 3%nat
    /\ forall k : nat, (1 <= k <= 3)%nat ->
         rets !! (k - 1)%nat = Some (5 + Z.of_nat k).
Proof.
  apply (bump_generation_n_times true 5 3).
  - unfold is_uint64, uint64_max. lia.
  - unfold uint64_max. lia.
Defined.

(** C2. On a counter whose generation is the largest [uint64_t] value,
    [bump_generation] fails its internal assertion, which is fatal; it does
    not return, the counter keeps its value and is not wrapped around
    to 0. *)
Theorem bump_generation_at_max_is_fatal (intrusive : bool) :
  cow.bump_generation (cow.new intrusive uint64_max)
    = (Fatal (InternalAssertFailed
                "generation_ != std::numeric_limits<std::uint64_t>::max()"),
       cow.new intrusive uint64_max)
  /\ is_fatal (cow.bump_generation (cow.new intrusive uint64_max)).1 = true
  /\ cow.generation_ (cow.bump_generation (cow.new intrusive uint64_max)).2
     = 2 ^ 64 - 1
  /\ cow.generation_ (cow.bump_generation (cow.new intrusive uint64_max)).2
     <> 0.
Proof.
  rewrite bump_generation_at_max by reflexivity. simpl.
  repeat split; done.
Qed.

(** The outcomes of a sequence of calls, and the value held at the end, do
    not depend on the ownership policy. *)
Lemma run_calls_policy (i j : bool) (cs : list cow.call) : forall g : Z,
  (cow.run_calls cs (cow.new i g)).1 = (cow.run_calls cs (cow.new j g)).1 /\
  cow.generation_ (cow.run_calls cs (cow.new i g)).2
    = cow.generation_ (cow.run_calls cs (cow.new j g)).2.
Proof.
  induction cs as [|c cs IH]; intros g; [done|].
  rewrite !run_calls_cons. destruct c; simpl.
  - destruct (IH g) as [-> ->]. done.
  - rewrite !bump_generation_eq. simpl.
    destruct (g =? uint64_max); simpl; [done|].
    destruct (IH (wrap64 (g + 1))) as [-> ->]. done.
Qed.

(** C5. Two counters that differ only in ownership policy, constructed from
    the same initial value and given the same sequence of [generation] and
    [bump_generation] calls: every call completes the same way with the same
    value on both, and both hold the same generation at the end. *)
Theorem ownership_policy_irrelevant (g : Z) (cs : list cow.call) :
  (cow.run_calls cs (cow.new true g)).1
    = (cow.run_calls cs (cow.new false g)).1
  /\ cow.generation_ (cow.run_calls cs (cow.new true g)).2
     = cow.generation_ (cow.run_calls cs (cow.new false g)).2
  /\ (cow.generation (cow.run_calls cs (cow.new true g)).2).1
     = (cow.generation (cow.run_calls cs (cow.new false g)).2).1.
Proof.
  destruct (run_calls_policy true false cs g) as [H1 H2].
  repeat split; try done. simpl. by rewrite H2.
Qed.

(** C8. On a counter holding a [uint64_t] value: [generation()] returns the
    stored value and leaves the counter as it was; a [bump_generation] that
    finds the counter below the largest value returns, with the stored value
    one more than before; and along any sequence of calls the stored value
    never goes down: it is at least the initial one after any calls [cs],
    and after further calls [cs'] at least what it was after [cs]. *)
Theorem generation_monotone (intrusive : bool)
    (this : cow.ShadowStorageImpl intrusive) (cs cs' : list cow.call) :
  cow.wf this ->
  cow.generation this = (Returns (cow.generation_ this), this)
  /\ (cow.generation_ this <> uint64_max ->
      cow.bump_generation this
        = (Returns (cow.generation_ this + 1),
           cow.new intrusive (cow.generation_ this + 1)))
  /\ cow.generation_ this <= cow.generation_ (cow.run_calls cs this).2
  /\ cow.generation_ (cow.run_calls cs this).2
     <= cow.generation_ (cow.run_calls (cs ++ cs') this).2.
Proof.
  intros Hwf.
  destruct (run_calls_invariant cs this Hwf) as [Hwf1 Hle1].
  split; [reflexivity|].
  split; [intros Hne; by apply bump_generation_below|].
  split; [done|].
  destruct (run_calls_app cs cs' this) as [-> | ->]; [lia|].
  by apply run_calls_invariant.
Qed.

Lemma generation_monotone_witness :
  cow.generation (cow.new true 7) = (Returns 7, cow.new true 7)
  /\ (7 <> uint64_max ->
      cow.bump_generation (cow.new true 7) = (Returns 8, cow.new true 8))
  /\ 7 <= cow.generation_
            (cow.run_calls [cow.CallBumpGeneration; cow.CallGeneration]
               (cow.new true 7)).2
  /\ cow.generation_
       (cow.run_calls [cow.CallBumpGeneration; cow.CallGeneration]
          (cow.new true 7)).2
     <= cow.generation_
          (cow.run_calls ([cow.CallBumpGeneration; cow.CallGeneration]
                            ++ [cow.CallBumpGeneration])
             (cow.new true 7)).2.
Proof.
  apply (generation_monotone true (cow.new true 7)
           [cow.CallBumpGeneration; cow.CallGeneration]
           [cow.CallBumpGeneration]).
  unfold cow.wf, is_uint64, uint64_max. simpl. lia.
Defined.

(** ** The shadow-storage mixin *)

(** C3. With [PYTORCH_INSTRUMENT_COW_TENSOR] not defined, a mixin answers
    [nullptr] from [shadow_storage()] and an empty pointer from
    [shadow_storage_ref()], whatever pointer it was constructed with. *)
Theorem mixin_disabled_is_null (p : intrusive_ptr) :
  cow.shadow_storage (cow.new_mixin false p) = nullptr
  /\ cow.shadow_storage_ref (cow.new_mixin false p) = null_intrusive_ptr
  /\ get (cow.shadow_storage_ref (cow.new_mixin false p)) = nullptr
  /\ forall this : cow.ShadowStorageMixin false,
       cow.shadow_storage this = nullptr
       /\ cow.shadow_storage_ref this = null_intrusive_ptr.
Proof. repeat split. Qed.

(** C6. With [PYTORCH_INSTRUMENT_COW_TENSOR] defined, the pointer returned
    by [shadow_storage()] is the address held by the pointer returned by
    [shadow_storage_ref()]: both are the one the mixin was constructed
    with. *)
Theorem mixin_enabled_same_object (this : cow.ShadowStorageMixin true)
    (p : intrusive_ptr) :
  cow.shadow_storage this = get (cow.shadow_storage_ref this)
  /\ cow.shadow_storage (cow.new_mixin true p) = get p
  /\ cow.shadow_storage_ref (cow.new_mixin true p) = p.
Proof. repeat split. Qed.

(** ** Counters in the store *)

Lemma invoke_Some {A} (a : addr)
    (m : forall intrusive, M (cow.ShadowStorageImpl intrusive) A)
    (h : gmap addr cow.object) i o :
  h !! a = Some (cow.Obj i o) ->
  cow.invoke a m h = ((m i o).1, <[a := cow.Obj i (m i o).2]> h).
Proof.
  intros E. unfold cow.invoke. rewrite E. by destruct (m i o).
Qed.

(** A call through [a] leaves every other address as it was. *)
Lemma invoke_frame {A} (a b : addr)
    (m : forall intrusive, M (cow.ShadowStorageImpl intrusive) A)
    (h : gmap addr cow.object) :
  a <> b -> (cow.invoke a m h).2 !! b = h !! b.
Proof.
  intros Hne. unfold cow.invoke.
  destruct (h !! a) as [[i o]|]; [|done].
  destruct (m i o) as [r o']. simpl. by rewrite lookup_insert_ne.
Qed.

Lemma fresh_unused (h : gmap addr cow.object) :
  h !! fresh (dom h) = None.
Proof. apply not_elem_of_dom, is_fresh. Qed.

Lemma bump_generation_small (i : bool) (g : Z) :
  0 <= g < 10 ->
  cow.bump_generation (cow.new i g) = (Returns (g + 1), cow.new i (g + 1)).
Proof.
  intros Hg. apply bump_generation_below.
  - unfold cow.wf, is_uint64, uint64_max. simpl. lia.
  - unfold uint64_max. simpl. lia.
Qed.

Lemma shadow_scenario_result (i j : bool) (h : gmap addr cow.object) :
  (cow.shadow_scenario i j h).1 = Returns (0, 3).
Proof.
  unfold cow.shadow_scenario, cow.allocate.
  set (s := fresh (dom h)).
  unfold bind at 1. cbv beta iota.
  set (h1 := <[s := cow.Obj i (cow.new i 0)]> h).
  assert (Hs1 : h1 !! s = Some (cow.Obj i (cow.new i 0)))
    by apply lookup_insert_eq.
  unfold bind at 1. rewrite (invoke_Some _ _ _ _ _ Hs1). cbv beta iota.
  simpl fst. simpl snd.
  set (h2 := <[s := cow.Obj i (cow.new i 0)]> h1).
  unfold bind at 1. cbv beta iota.
  set (v := fresh (dom h2)).
  assert (Hv : h2 !! v = None) by apply fresh_unused.
  assert (Hsv : s <> v).
  { intros E. rewrite <- E in Hv. subst h2.
    rewrite lookup_insert_eq in Hv. done. }
  set (h3 := <[v := cow.Obj j (cow.new j 0)]> h2).
  assert (Hs3 : h3 !! s = Some (cow.Obj i (cow.new i 0))).
  { subst h3 h2. rewrite lookup_insert_ne by done. apply lookup_insert_eq. }
  unfold bind at 1. rewrite (invoke_Some _ _ _ _ _ Hs3).
  rewrite (bump_generation_small i 0) by lia. cbv beta iota. simpl fst. simpl snd.
  set (h4 := <[s := cow.Obj i (cow.new i (0 + 1))]> h3).
  assert (Hs4 : h4 !! s = Some (cow.Obj i (cow.new i (0 + 1))))
    by apply lookup_insert_eq.
  unfold bind at 1. rewrite (invoke_Some _ _ _ _ _ Hs4).
  rewrite (bump_generation_small i (0 + 1)) by lia. cbv beta iota. simpl fst. simpl snd.
  set (h5 := <[s := cow.Obj i (cow.new i (0 + 1 + 1))]> h4).
  assert (Hs5 : h5 !! s = Some (cow.Obj i (cow.new i (0 + 1 + 1))))
    by apply lookup_insert_eq.
  unfold bind at 1. rewrite (invoke_Some _ _ _ _ _ Hs5).
  rewrite (bump_generation_small i (0 + 1 + 1)) by lia. cbv beta iota. simpl fst. simpl snd.
  set (h6 := <[s := cow.Obj i (cow.new i (0 + 1 + 1 + 1))]> h5).
  assert (Hv6 : h6 !! v = Some (cow.Obj j (cow.new j 0))).
  { subst h6 h5 h4 h3. rewrite !(lookup_insert_ne _ s v) by done.
    apply lookup_insert_eq. }
  unfold bind at 1. rewrite (invoke_Some _ _ _ _ _ Hv6). cbv beta iota.
  simpl fst. simpl snd.
  set (h7 := <[v := cow.Obj j (cow.new j 0)]> h6).
  assert (Hs7 : h7 !! s = Some (cow.Obj i (cow.new i (0 + 1 + 1 + 1)))).
  { subst h7 h6. rewrite lookup_insert_ne by done. apply lookup_insert_eq. }
  unfold bind at 1. rewrite (invoke_Some _ _ _ _ _ Hs7). cbv beta iota.
  reflexivity.
Qed.

(** C7. A bump of the storage's live counter leaves the generation held by
    any other counter of the store, so by any shadow captured before, as it
    was.  In the scenario (live counter created at 0, shadow capturing the
    generation read from it, three bumps of the live counter) the shadow
    then reports 0 and the storage 3, from any store and for any ownership
    policies. *)
Theorem shadow_not_changed_by_bump (i j : bool) (h : gmap addr cow.object)
    (storage shadow : addr) (g : Z) :
  storage <> shadow ->
  cow.generation_at shadow h = Some g ->
  cow.generation_at shadow (cow.invoke storage (@cow.bump_generation) h).2
    = Some g
  /\ (cow.shadow_scenario i j h).1 = Returns (0, 3).
Proof.
  intros Hne Hg. split; [|apply shadow_scenario_result].
  unfold cow.generation_at in *. by rewrite invoke_frame.
Qed.

Lemma shadow_not_changed_by_bump_witness :
  cow.generation_at 1%nat
    (cow.invoke 0%nat (@cow.bump_generation)
       (<[0%nat := cow.Obj true (cow.new true 4)]>
          {[1%nat := cow.Obj true (cow.new true 2)]})).2
    = Some 2
  /\ (cow.shadow_scenario true true
        (<[0%nat := cow.Obj true (cow.new true 4)]>
           {[1%nat := cow.Obj true (cow.new true 2)]})).1
     = Returns (0, 3).
Proof.
  apply (shadow_not_changed_by_bump true true
           (<[0%nat := cow.Obj true (cow.new true 4)]>
              {[1%nat := cow.Obj true (cow.new true 2)]})
           0%nat 1%nat 2).
  - discriminate.
  - vm_compute. reflexivity.
Defined.

(** ** The Storage facade *)

Section StorageFacade.
Context {World : Type} `{!StorageImpl World}.

(** C4. On a [Storage] whose [storage_impl_] is null, both
    [simulate_copy_on_write] and [maybe_bump_copy_on_write_generation]
    fail the internal assertion [storage_impl_ != nullptr], which is
    fatal, for every simulator argument; nothing of the backing
    implementation runs and the world is left as it was. *)
Theorem storage_null_impl_is_fatal (simulator : ptr) (w : World) :
  Storage.simulate_copy_on_write
      {| Storage.storage_impl_ := null_intrusive_ptr |} simulator w
    = (Fatal (InternalAssertFailed "storage_impl_ != nullptr"), w)
  /\ Storage.maybe_bump_copy_on_write_generation
      {| Storage.storage_impl_ := null_intrusive_ptr |} simulator w
    = (Fatal (InternalAssertFailed "storage_impl_ != nullptr"), w)
  /\ is_internal_assert
       (Storage.simulate_copy_on_write
          {| Storage.storage_impl_ := null_intrusive_ptr |} simulator w).1
     = true
  /\ is_internal_assert
       (Storage.maybe_bump_copy_on_write_generation
          {| Storage.storage_impl_ := null_intrusive_ptr |} simulator w).1
     = true.
Proof. repeat split. Qed.

(** C9. On a [Storage] whose [storage_impl_] points to an implementation
    object, [simulate_copy_on_write] completes exactly as that object's
    [simulate_copy_on_write] does on the same simulator argument: same
    result, same effect on the world. *)
Theorem storage_simulate_delegates (impl : addr) (simulator : ptr) :
  Storage.simulate_copy_on_write
      {| Storage.storage_impl_ := {| get := Some impl |} |} simulator
    = StorageImpl_simulate_copy_on_write impl simulator.
Proof.
  unfold Storage.simulate_copy_on_write, bind, TORCH_INTERNAL_ASSERT,
    not_null, arrow. simpl.
  reflexivity.
Qed.
End StorageFacade.

(** ** The c10d shuffle operators *)

Section Shuffle.
Context {Tensor World : Type} `{!CudaKernels Tensor World}.

(** C10. Built without [USE_CUDA], [fsdp_all_gather_copy_out] and
    [unflatten_cat_with_pad], the kernels that the c10d fragment registers
    under these names, raise [NotImplementedError] on every input and
    leave the world, so every tensor, as it was. *)
Theorem shuffle_not_implemented_without_cuda :
  (forall (params : list Tensor) (all_gather_res : Tensor) (world_size : Z)
          (w : World),
      shuffle.fsdp_all_gather_copy_out false params all_gather_res world_size w
        = (Throws (NotImplementedError "Not implemented for CPU"), w))
  /\ (forall (tensors : list Tensor) (dim factor : Z) (out : Tensor)
            (w : World),
      shuffle.unflatten_cat_with_pad false tensors dim factor out w
        = (Throws (NotImplementedError "Not implemented for CPU"), w))
  /\ map (fun d => (shuffle.schema_name (shuffle.schema d), shuffle.kernel d))
        (shuffle.c10d_fragment false)
     = [ ("fsdp_all_gather_copy_out",
          shuffle.Kernel_TensorList_Tensor_int
            (shuffle.fsdp_all_gather_copy_out false));
         ("unflatten_cat_with_pad",
          shuffle.Kernel_TensorList_int_int_Tensor
            (shuffle.unflatten_cat_with_pad false)) ].
Proof. repeat split. Qed.
End Shuffle.

(** * Further properties *)

(** ** The generation counter: failure, exhaustion and counting *)

Lemma wrap64_range (x : Z) : is_uint64 (wrap64 x).
Proof.
  unfold is_uint64, wrap64, uint64_max.
  pose proof (Z.mod_pos_bound x (2 ^ 64)). lia.
Qed.

Lemma bump_generation_returns (intrusive : bool)
    (this this' : cow.ShadowStorageImpl intrusive) (v : Z) :
  cow.bump_generation this = (Returns v, this') ->
  v = cow.generation_ this' /\ is_uint64 v
  /\ cow.generation_ this <> uint64_max.
Proof.
  rewrite bump_generation_eq.
  destruct (Z.eqb_spec (cow.generation_ this) uint64_max) as [E|Hne];
    [discriminate|].
  intros [= <- <-]. split; [reflexivity|].
  split; [apply wrap64_range | done].
Qed.

(** X1. A value returned by [bump_generation] is what [generation()]
    returns right after, on the counter the bump left; it is a [uint64_t]
    value, and the counter was not at the largest value before. *)
Theorem bump_generation_then_generation (intrusive : bool)
    (this this' : cow.ShadowStorageImpl intrusive) (v : Z) :
  cow.bump_generation this = (Returns v, this') ->
  cow.generation this' = (Returns v, this')
  /\ is_uint64 v
  /\ cow.generation_ this <> uint64_max.
Proof.
  intros Hb. destruct (bump_generation_returns _ _ _ _ Hb) as (-> & Hv & Hne).
  done.
Qed.

Lemma bump_generation_then_generation_witness :
  cow.generation (cow.new false 42) = (Returns 42, cow.new false 42)
  /\ is_uint64 42
  /\ cow.generation_ (cow.new false 41) <> uint64_max.
Proof.
  apply (bump_generation_then_generation false (cow.new false 41)
           (cow.new false 42) 42).
  vm_compute. reflexivity.
Defined.

(** X2. [bump_generation] fails exactly when the counter is at the largest
    [uint64_t] value, and returns exactly when it is not; it never throws
    and never has undefined behaviour. *)
Theorem bump_generation_fails_only_at_max (intrusive : bool)
    (this : cow.ShadowStorageImpl intrusive) :
  (cow.generation_ this = uint64_max
     <-> is_fatal (cow.bump_generation this).1 = true)
  /\ (cow.generation_ this <> uint64_max
     <-> cow.returned (cow.bump_generation this).1 = true)
  /\ (cow.bump_generation this).1 <> Undefined
  /\ (forall e, (cow.bump_generation this).1 <> Throws e).
Proof.
  rewrite bump_generation_eq.
  destruct (Z.eqb_spec (cow.generation_ this) uint64_max) as [E|Hne]; simpl;
    repeat split; try done.
Qed.

(** X3. Exhaustion: from a [uint64_t] generation [G], asking for more bumps
    than there is room below the largest value ends in the fatal assertion,
    with the counter left at the largest value. *)
Theorem bump_n_exhausts (intrusive : bool) (N : nat) : forall G : Z,
  is_uint64 G ->
  G + Z.of_nat N > uint64_max ->
  cow.bump_n N (cow.new intrusive G)
    = (Fatal (InternalAssertFailed
                "generation_ != std::numeric_limits<std::uint64_t>::max()"),
       cow.new intrusive uint64_max).
Proof.
  induction N as [|N IH]; intros G HG Hgt.
  - unfold is_uint64 in HG. lia.
  - rewrite bump_n_succ.
    destruct (decide (G = uint64_max)) as [->|Hne].
    + by rewrite bump_generation_at_max.
    + rewrite bump_generation_below by done. simpl.
      rewrite IH; [done| |lia].
      unfold is_uint64 in *. lia.
Qed.

Lemma bump_n_exhausts_witness :
  cow.bump_n 3 (cow.new true (uint64_max - 2))
    = (Fatal (InternalAssertFailed
                "generation_ != std::numeric_limits<std::uint64_t>::max()"),
       cow.new true uint64_max).
Proof.
  apply (bump_n_exhausts true 3 (uint64_max - 2)).
  - unfold is_uint64, uint64_max. lia.
  - unfold uint64_max. lia.
Defined.

Lemma count_bumps_cons (c : cow.call) (cs : list cow.call) :
  cow.count_bumps (c :: cs)
    = ((if cow.is_bump c then 1 else 0) + cow.count_bumps cs)%nat.
Proof. unfold cow.count_bumps. simpl. by destruct (cow.is_bump c). Qed.

(** X4. The counter counts the bumps, and only them: after any sequence of
    calls on a [uint64_t] counter the generation is at most the initial one
    plus the number of [bump_generation] calls; where that sum does not
    exceed the largest value, it is exactly that sum and every call of the
    sequence returned. *)
Theorem run_calls_counts_bumps (intrusive : bool) (cs : list cow.call) :
  forall this : cow.ShadowStorageImpl intrusive,
  cow.wf this ->
  cow.generation_ (cow.run_calls cs this).2
    <= cow.generation_ this + Z.of_nat (cow.count_bumps cs)
  /\ (cow.generation_ this + Z.of_nat (cow.count_bumps cs) <= uint64_max ->
      cow.generation_ (cow.run_calls cs this).2
        = cow.generation_ this + Z.of_nat (cow.count_bumps cs)
      /\ length (cow.run_calls cs this).1 = length cs
      /\ forallb cow.returned (cow.run_calls cs this).1 = true).
Proof.
  induction cs as [|c cs IH]; intros this Hwf.
  - unfold cow.count_bumps. simpl. split; [lia|]. intros _. split; [lia|done].
  - rewrite run_calls_cons, count_bumps_cons. destruct c; simpl cow.is_bump.
    + simpl. destruct (IH this Hwf) as [Hle Heq].
      split; [lia|]. intros Hroom.
      destruct Heq as (-> & -> & ->); [lia|]. split; [lia|done].
    + simpl cow.do_call. rewrite bump_generation_eq.
      destruct (Z.eqb_spec (cow.generation_ this) uint64_max) as [E|Hne]; simpl.
      * split; [lia|]. intros Hroom. lia.
      * rewrite wrap64_succ by done.
        assert (Hwf' : cow.wf (cow.new intrusive (cow.generation_ this + 1))).
        { unfold cow.wf, is_uint64 in *. simpl. lia. }
        destruct (IH _ Hwf') as [Hle Heq]. simpl in Hle, Heq.
        split; [lia|]. intros Hroom.
        destruct Heq as (-> & -> & ->); [lia|]. split; [lia|done].
Qed.

Lemma run_calls_counts_bumps_witness :
  cow.generation_
    (cow.run_calls [cow.CallBumpGeneration; cow.CallGeneration;
                    cow.CallBumpGeneration] (cow.new true 10)).2
    <= 10 + Z.of_nat 2
  /\ (10 + Z.of_nat 2 <= uint64_max ->
      cow.generation_
        (cow.run_calls [cow.CallBumpGeneration; cow.CallGeneration;
                        cow.CallBumpGeneration] (cow.new true 10)).2
        = 10 + Z.of_nat 2
      /\ length
           (cow.run_calls [cow.CallBumpGeneration; cow.CallGeneration;
                           cow.CallBumpGeneration] (cow.new true 10)).1
         = 3%nat
      /\ forallb cow.returned
           (cow.run_calls [cow.CallBumpGeneration; cow.CallGeneration;
                           cow.CallBumpGeneration] (cow.new true 10)).1
         = true).
Proof.
  apply (run_calls_counts_bumps true
           [cow.CallBumpGeneration; cow.CallGeneration; cow.CallBumpGeneration]
           (cow.new true 10)).
  unfold cow.wf, is_uint64, uint64_max. simpl. lia.
Defined.

(** X5. [generation()] calls are transparent: dropping them from a sequence
    of calls does not change the counter the sequence ends with. *)
Theorem run_calls_generation_transparent (intrusive : bool)
    (cs : list cow.call) :
  forall this : cow.ShadowStorageImpl intrusive,
  (cow.run_calls cs this).2
    = (cow.run_calls (List.filter cow.is_bump cs) this).2.
Proof.
  induction cs as [|c cs IH]; intros this; [done|].
  destruct c; simpl List.filter.
  - rewrite run_calls_cons. simpl. apply IH.
  - rewrite !run_calls_cons.
    destruct (cow.do_call cow.CallBumpGeneration this) as [[v|e|e|] this'];
      simpl; auto.
Qed.

(** X6. Every value a call returns, in any sequence of calls on a
    [uint64_t] counter, lies between the generation the counter started with
    and the one it ends with, which is itself a [uint64_t] value. *)
Theorem run_calls_values_bounded (intrusive : bool) (cs : list cow.call) :
  forall (this : cow.ShadowStorageImpl intrusive) (v : Z),
  cow.wf this ->
  In (Returns v) (cow.run_calls cs this).1 ->
  cow.generation_ this <= v
  /\ v <= cow.generation_ (cow.run_calls cs this).2
  /\ cow.generation_ (cow.run_calls cs this).2 <= uint64_max.
Proof.
  induction cs as [|c cs IH]; intros this v Hwf Hin; [destruct Hin|].
  rewrite run_calls_cons in *.
  destruct (do_call_step c this Hwf) as [Hwf' Hstep].
  assert (Hv : forall u this', cow.do_call c this = (Returns u, this') ->
                               u = cow.generation_ this').
  { intros u this'. destruct c; simpl.
    - by intros [= <- <-].
    - intros Hb. by destruct (bump_generation_returns _ this this' u Hb). }
  destruct (cow.do_call c this) as [[u|e|e|] this'] eqn:E; simpl in *;
    try (destruct Hin as [Hin|[]]; discriminate).
  destruct (run_calls_invariant cs this' Hwf') as [Hwf'' Hle].
  specialize (Hv u this' eq_refl). subst u.
  destruct Hin as [[= <-]|Hin].
  - unfold cow.wf, is_uint64 in Hwf''. lia.
  - destruct (IH this' v Hwf' Hin) as (H1 & H2 & H3). lia.
Qed.

Lemma run_calls_values_bounded_witness :
  5 <= 6
  /\ 6 <= cow.generation_
            (cow.run_calls [cow.CallBumpGeneration; cow.CallGeneration]
               (cow.new true 5)).2
  /\ cow.generation_
       (cow.run_calls [cow.CallBumpGeneration; cow.CallGeneration]
          (cow.new true 5)).2 <= uint64_max.
Proof.
  apply (run_calls_values_bounded true
           [cow.CallBumpGeneration; cow.CallGeneration] (cow.new true 5) 6).
  - unfold cow.wf, is_uint64, uint64_max. simpl. lia.
  - vm_compute. left. reflexivity.
Defined.

(** ** The mixin and the counter it points to *)

(** X7. In either build, the raw pointer [shadow_storage()] returns is the
    one held by the pointer [shadow_storage_ref()] returns. *)
Theorem mixin_accessors_agree (PYTORCH_INSTRUMENT_COW_TENSOR : bool)
    (this : cow.ShadowStorageMixin PYTORCH_INSTRUMENT_COW_TENSOR) :
  cow.shadow_storage this = get (cow.shadow_storage_ref this).
Proof. destruct PYTORCH_INSTRUMENT_COW_TENSOR; reflexivity. Qed.


(** X9. Reading the generation through a pointer changes no object of the
    store and returns the generation held there. *)
Theorem invoke_generation_const (a : addr) (g : Z) (h : gmap addr cow.object) :
  cow.generation_at a h = Some g ->
  cow.invoke a (@cow.generation) h = (Returns g, h).
Proof.
  unfold cow.generation_at. intros Hg.
  destruct (h !! a) as [[i o]|] eqn:E; [|discriminate].
  injection Hg as <-.
  rewrite (invoke_Some _ _ _ _ _ E). simpl.
  by rewrite insert_id.
Qed.

Lemma invoke_generation_const_witness :
  cow.invoke 3%nat (@cow.generation) {[3%nat := cow.Obj false (cow.new false 9)]}
    = (Returns 9, {[3%nat := cow.Obj false (cow.new false 9)]}).
Proof.
  apply (invoke_generation_const 3%nat 9
           {[3%nat := cow.Obj false (cow.new false 9)]}).
  vm_compute. reflexivity.
Defined.

(** X10. Mixins constructed with the same pointer share the counter: a bump
    made through [shadow_storage()] of one is what [generation()] through
    [shadow_storage()] of the other returns afterwards. *)
Theorem mixins_share_counter (p : intrusive_ptr) (a : addr) (i : bool)
    (g : Z) (h : gmap addr cow.object) :
  get p = Some a ->
  h !! a = Some (cow.Obj i (cow.new i g)) ->
  is_uint64 g ->
  g <> uint64_max ->
  ((cow.through_shadow_storage (cow.new_mixin true p) (@cow.bump_generation) ;;;
    cow.through_shadow_storage (cow.new_mixin true p) (@cow.generation)) h).1
    = Returns (g + 1).
Proof.
  intros Hp Ha Hg Hne.
  unfold cow.through_shadow_storage. simpl. rewrite Hp. simpl.
  unfold bind. rewrite (invoke_Some _ _ _ _ _ Ha).
  rewrite bump_generation_below by done. simpl.
  erewrite invoke_Some by apply lookup_insert_eq. reflexivity.
Qed.

Lemma mixins_share_counter_witness :
  ((cow.through_shadow_storage (cow.new_mixin true {| get := Some 2%nat |})
      (@cow.bump_generation) ;;;
    cow.through_shadow_storage (cow.new_mixin true {| get := Some 2%nat |})
      (@cow.generation))
     {[2%nat := cow.Obj true (cow.new true 7)]}).1
    = Returns (7 + 1).
Proof.
  apply (mixins_share_counter {| get := Some 2%nat |} 2%nat true 7
           {[2%nat := cow.Obj true (cow.new true 7)]}).
  - reflexivity.
  - vm_compute. reflexivity.
  - unfold is_uint64, uint64_max. lia.
  - unfold uint64_max. lia.
Defined.

(** ** The Storage facade: delegation and the guarded dereference *)

(** X11. On a [Storage] whose [storage_impl_] points to an implementation
    object, [maybe_bump_copy_on_write_generation] completes exactly as that
    object's [maybe_bump_copy_on_write_generation] does on the same
    simulator argument: same outcome, same effect on the world. *)
Theorem storage_maybe_bump_delegates {World : Type} `{!StorageImpl World}
    (this : Storage.Storage) (impl : addr) (simulator : ptr) :
  get (Storage.storage_impl_ this) = Some impl ->
  Storage.maybe_bump_copy_on_write_generation this simulator
    = StorageImpl_maybe_bump_copy_on_write_generation impl simulator.
Proof.
  intros E.
  unfold Storage.maybe_bump_copy_on_write_generation, bind,
    TORCH_INTERNAL_ASSERT, not_null, arrow.
  rewrite E. reflexivity.
Qed.

Lemma storage_maybe_bump_delegates_witness :
  @Storage.maybe_bump_copy_on_write_generation _ counting_StorageImpl
      {| Storage.storage_impl_ := {| get := Some 7%nat |} |} (Some 3%nat)
    = @StorageImpl_maybe_bump_copy_on_write_generation _ counting_StorageImpl
        7%nat (Some 3%nat).
Proof.
  apply (@storage_maybe_bump_delegates _ counting_StorageImpl
           {| Storage.storage_impl_ := {| get := Some 7%nat |} |}
           7%nat (Some 3%nat)).
  reflexivity.
Defined.

(** X12. The assertion guards the dereference: over a backing
    implementation whose entry points have defined behaviour, neither
    member of [Storage] has undefined behaviour on any [Storage], null
    [storage_impl_] included. *)
Theorem storage_never_dereferences_null {World : Type} `{!StorageImpl World}
    (this : Storage.Storage) (simulator : ptr) (w : World) :
  (forall impl sim w',
      (StorageImpl_simulate_copy_on_write impl sim w').1 <> Undefined) ->
  (forall impl sim w',
      (StorageImpl_maybe_bump_copy_on_write_generation impl sim w').1
        <> Undefined) ->
  (Storage.simulate_copy_on_write this simulator w).1 <> Undefined
  /\ (Storage.maybe_bump_copy_on_write_generation this simulator w).1
     <> Undefined.
Proof.
  intros Hsim Hbump.
  unfold Storage.simulate_copy_on_write,
    Storage.maybe_bump_copy_on_write_generation, bind,
    TORCH_INTERNAL_ASSERT, not_null, arrow.
  destruct (get (Storage.storage_impl_ this)) as [impl|]; simpl.
  - split.
    + specialize (Hsim impl simulator w).
      by destruct (StorageImpl_simulate_copy_on_write impl simulator w)
        as [[]].
    + specialize (Hbump impl simulator w).
      by destruct (StorageImpl_maybe_bump_copy_on_write_generation
                     impl simulator w) as [[]].
  - split; discriminate.
Qed.

Lemma storage_never_dereferences_null_witness :
  (@Storage.simulate_copy_on_write _ counting_StorageImpl
     {| Storage.storage_impl_ := null_intrusive_ptr |} (Some 3%nat)
     (0%nat, 0%nat)).1 <> Undefined
  /\ (@Storage.maybe_bump_copy_on_write_generation _ counting_StorageImpl
        {| Storage.storage_impl_ := null_intrusive_ptr |} (Some 3%nat)
        (0%nat, 0%nat)).1 <> Undefined.
Proof.
  apply (@storage_never_dereferences_null _ counting_StorageImpl
           {| Storage.storage_impl_ := null_intrusive_ptr |} (Some 3%nat)
           (0%nat, 0%nat)).
  - intros impl sim w'. simpl. discriminate.
  - intros impl sim w'. simpl. discriminate.
Defined.

(** ** The c10d shuffle operators: registration and the CUDA build *)

Section ShuffleRegistration.
Context {Tensor World : Type} `{!CudaKernels Tensor World}.


(** X14. Built with [USE_CUDA], the two operators are the CUDA
    implementations, called with the arguments in the order received:
    each wrapper completes as the implementation does on every input, and
    the implementations are the kernels the fragment registers. *)
Theorem shuffle_with_cuda_delegates :
  (forall (params : list Tensor) (all_gather_res : Tensor) (world_size : Z),
      shuffle.fsdp_all_gather_copy_out true params all_gather_res world_size
        = fsdpAllGatherCopyOut params all_gather_res world_size)
  /\ (forall (tensors : list Tensor) (dim factor : Z) (out : Tensor),
      shuffle.unflatten_cat_with_pad true tensors dim factor out
        = unflatten_cat_with_pad_cuda tensors dim factor out)
  /\ map shuffle.kernel (shuffle.c10d_fragment true)
     = [ shuffle.Kernel_TensorList_Tensor_int fsdpAllGatherCopyOut;
         shuffle.Kernel_TensorList_int_int_Tensor unflatten_cat_with_pad_cuda ].
Proof. repeat split. Qed.
End ShuffleRegistration.
